(** * caffe/common.hpp: execution context and pooled device memory

    A shallow embedding of [include/caffe/common.hpp]: the [NOT_IMPLEMENTED]
    macro, the thread-local [Caffe] singleton, the process-wide
    [MemoryHandler] (alias [CuMem]) and the scoped [MemoryHandlerActivator].

    The header only declares the out-of-line members ([Caffe::Get],
    [Caffe::set_random_seed], [MemoryHandler::Init], [mallocGPU], [freeGPU],
    [destroy], ...); their bodies live in common.cpp / CuMem.cpp.  Inline
    members are embedded from the header.  Out-of-line members are either
    abstracted as parameters of a section, or given a definition marked
    "Modelled from the spec". *)

From Stdlib Require Import ZArith String.
From stdpp Require Import base option list gmap.

Local Open Scope Z_scope.

(** ** Preprocessor configuration

    The header is conditional on [CPU_ONLY] and [USE_CNMEM]. *)

Record BuildConfig : Type := mkBuild {
  CPU_ONLY : bool;
  USE_CNMEM : bool
}.

(** ** Computations that may hit a fatal log

    glog's [LOG(FATAL)] writes the message and terminates the process: the
    statement never returns to its caller and no later statement runs.  A
    computation over a state [S] therefore either returns a value and a new
    state, or ends the process in the state it had reached. *)

Inductive outcome (S A : Type) : Type :=
| Returned (a : A) (s : S)
| Aborted (msg : string) (s : S).
Arguments Returned {S A} a s.
Arguments Aborted {S A} msg s.

Definition M (S A : Type) : Type := S -> outcome S A.

Definition ret {S A} (a : A) : M S A := fun s => Returned a s.

Definition bind {S A B} (c : M S A) (k : A -> M S B) : M S B :=
  fun s =>
    match c s with
    | Returned a s' => k a s'
    | Aborted msg s' => Aborted msg s'
    end.

#[global] Instance M_ret {S} : MRet (M S) := fun A a => ret a.
#[global] Instance M_bind {S} : MBind (M S) := fun A B k c => bind c k.

Definition LOG_FATAL {S A} (msg : string) : M S A := fun s => Aborted msg s.

Definition final_state {S A} (o : outcome S A) : S :=
  match o with
  | Returned _ s => s
  | Aborted _ s => s
  end.

Definition returns {S A} (o : outcome S A) : bool :=
  match o with
  | Returned _ _ => true
  | Aborted _ _ => false
  end.

(** [#define NOT_IMPLEMENTED LOG(FATAL) << "Not Implemented Yet"] *)
Definition NOT_IMPLEMENTED {S A} : M S A := LOG_FATAL "Not Implemented Yet".

Lemma bind_Returned {S A B} (c : M S A) (k : A -> M S B) s a s' :
  c s = Returned a s' -> bind c k s = k a s'.
Proof. intros E. unfold bind. now rewrite E. Qed.


Lemma bind_ret_l {S A B} (a : A) (k : A -> M S B) s : bind (ret a) k s = k a s.
Proof. reflexivity. Qed.

(** C9: a code path marked [NOT_IMPLEMENTED] ends the process with the fatal
    message; whatever statements follow it never run, and it never returns. *)
Theorem NOT_IMPLEMENTED_is_fatal :
  forall (S A B : Type) (rest : A -> M S B) (s : S),
    (@NOT_IMPLEMENTED S A ≫= rest) s = Aborted "Not Implemented Yet" s /\
    returns (@NOT_IMPLEMENTED S A s) = false /\
    (forall (a : A) (s' : S), @NOT_IMPLEMENTED S A s <> Returned a s').
Proof.
  intros S A B rest s. repeat split.
  intros a s'. unfold NOT_IMPLEMENTED, LOG_FATAL. discriminate.
Qed.

(** ** The thread-local [Caffe] singleton *)

Module Caffe.

(** [enum Brew { CPU, GPU }] *)
Inductive Brew : Type := CPU | GPU.

Section Context_.

(** The backend behind [Caffe::RNG] is the private class
    [RNG::Generator], opaque in the header.  It is kept abstract: a state
    type, its seeded constructor, and one draw from it. *)
Variable Generator : Type.
Variable Generator_seeded : Z -> Generator.
Variable Generator_next : Generator -> Z * Generator.

(** [class RNG { shared_ptr<Generator> generator_; }] *)
Record RNG : Type := mkRNG { generator_ : Generator }.

(** Modelled from the spec: [RNG::RNG(unsigned int seed)] (body in
    common.cpp): the facade wraps a backend generator built from the
    seed. *)
Definition RNG_seeded (seed : Z) : RNG := mkRNG (Generator_seeded seed).

(** [curandGenerator_t]: the device-side generator behind the handle, as
    far as reseeding is concerned. *)
Record curandGenerator_t : Type := mkCurand { curand_seed : Z }.

(** The data members of [class Caffe].  The cublas and cudnn handles are
    not needed here; [curand_generator_] is compiled in only without
    [CPU_ONLY]. *)
Record Caffe : Type := mkCaffe {
  curand_generator_ : curandGenerator_t;
  random_generator_ : option RNG;      (* shared_ptr<RNG>, None = null *)
  mode_ : Brew;
  solver_count_ : Z;
  root_solver_ : bool
}.

(** The private constructor [Caffe::Caffe()] is defined in common.cpp; the
    instance it builds is a parameter. *)
Variable Caffe_new : Caffe.

(** The per-process runtime as seen by [Caffe]: one instance per thread,
    and the value the environment would hand out as default seed. *)
Record Runtime : Type := mkRuntime {
  tls : gmap nat Caffe;
  seedgen : Z
}.

(** Modelled from the spec: [Caffe::Get()] (body in common.cpp), "Thread
    local context for Caffe": returns the calling thread's instance,
    creating it if absent.  [instance] is the object the returned
    reference denotes, [Get] the runtime after the call. *)
Definition instance (t : nat) (r : Runtime) : Caffe :=
  default Caffe_new (tls r !! t).

Definition Get (t : nat) (r : Runtime) : Runtime :=
  mkRuntime (<[t := instance t r]> (tls r)) (seedgen r).

(** Assignment through the reference returned by [Get()]. *)
Definition modify (t : nat) (f : Caffe -> Caffe) (r : Runtime) : Runtime :=
  mkRuntime (<[t := f (instance t r)]> (tls r)) (seedgen r).

Definition with_mode (m : Brew) (c : Caffe) : Caffe :=
  mkCaffe (curand_generator_ c) (random_generator_ c) m
          (solver_count_ c) (root_solver_ c).

Definition with_solver_count (n : Z) (c : Caffe) : Caffe :=
  mkCaffe (curand_generator_ c) (random_generator_ c) (mode_ c)
          n (root_solver_ c).

Definition with_root_solver (b : bool) (c : Caffe) : Caffe :=
  mkCaffe (curand_generator_ c) (random_generator_ c) (mode_ c)
          (solver_count_ c) b.

Definition with_random_generator (g : option RNG) (c : Caffe) : Caffe :=
  mkCaffe (curand_generator_ c) g (mode_ c)
          (solver_count_ c) (root_solver_ c).

Definition with_curand_generator (g : curandGenerator_t) (c : Caffe) : Caffe :=
  mkCaffe g (random_generator_ c) (mode_ c)
          (solver_count_ c) (root_solver_ c).

(** [inline static Brew mode() { return Get().mode_; }] *)
Definition mode (t : nat) (r : Runtime) : Brew * Runtime :=
  (mode_ (instance t r), Get t r).

(** [inline static void set_mode(Brew mode) { Get().mode_ = mode; }] *)
Definition set_mode (t : nat) (m : Brew) (r : Runtime) : Runtime :=
  modify t (with_mode m) r.

(** [solver_count], [set_solver_count], [root_solver], [set_root_solver] *)
Definition solver_count (t : nat) (r : Runtime) : Z * Runtime :=
  (solver_count_ (instance t r), Get t r).

Definition set_solver_count (t : nat) (val : Z) (r : Runtime) : Runtime :=
  modify t (with_solver_count val) r.

Definition root_solver (t : nat) (r : Runtime) : bool * Runtime :=
  (root_solver_ (instance t r), Get t r).

Definition set_root_solver (t : nat) (val : bool) (r : Runtime) : Runtime :=
  modify t (with_root_solver val) r.

(** Modelled from the spec: [RNG::RNG()] (body in common.cpp): the facade
    constructed "with a default seed", taken from the environment. *)
Definition RNG_default (r : Runtime) : RNG := RNG_seeded (seedgen r).

(** [[
    inline static RNG& rng_stream() {
      if (!Get().random_generator_) {
        Get().random_generator_.reset(new RNG());
      }
      return *(Get().random_generator_);
    }
    ]]
    The result is the runtime after the call together with the facade the
    returned reference denotes. *)
Definition rng_stream (t : nat) (r : Runtime) : RNG * Runtime :=
  match random_generator_ (instance t r) with
  | None =>
      let g := RNG_default r in
      (g, modify t (with_random_generator (Some g)) r)
  | Some g => (g, Get t r)
  end.

(** Modelled from the spec: [Caffe::set_random_seed] (body in common.cpp):
    "reseeds both the host-side and device-side RNG backing the facade
    consistently". *)
Definition set_random_seed (t : nat) (seed : Z) (r : Runtime) : Runtime :=
  modify t (fun c =>
              with_random_generator (Some (RNG_seeded seed))
                (with_curand_generator (mkCurand seed) c)) r.

(** Modelled from the spec: one draw through the facade.  [RNG::generator()]
    (body in common.cpp) hands out "an opaque generator handle"; the caller
    obtains [rng_stream()], takes its generator and advances it in place. *)
Definition draw (t : nat) (r : Runtime) : Z * Runtime :=
  let '(g, r1) := rng_stream t r in
  let '(x, gen') := Generator_next (generator_ g) in
  (x, modify t (with_random_generator (Some (mkRNG gen'))) r1).

Fixpoint draws (n : nat) (t : nat) (r : Runtime) : list Z * Runtime :=
  match n with
  | O => ([], r)
  | S n' =>
      let '(x, r1) := draw t r in
      let '(xs, r2) := draws n' t r1 in
      (x :: xs, r2)
  end.

(** The sequence a backend generator produces on its own. *)
Fixpoint Generator_stream (n : nat) (g : Generator) : list Z :=
  match n with
  | O => []
  | S n' => let '(x, g') := Generator_next g in x :: Generator_stream n' g'
  end.

(** Calls a thread can make on the facade. *)
Inductive Op : Type :=
| OpMode
| OpSetMode (m : Brew)
| OpSolverCount
| OpSetSolverCount (val : Z)
| OpRootSolver
| OpSetRootSolver (val : bool)
| OpRngStream
| OpSetRandomSeed (seed : Z)
| OpDraw.

Definition exec (t : nat) (o : Op) (r : Runtime) : Runtime :=
  match o with
  | OpMode => snd (mode t r)
  | OpSetMode m => set_mode t m r
  | OpSolverCount => snd (solver_count t r)
  | OpSetSolverCount v => set_solver_count t v r
  | OpRootSolver => snd (root_solver t r)
  | OpSetRootSolver v => set_root_solver t v r
  | OpRngStream => snd (rng_stream t r)
  | OpSetRandomSeed s => set_random_seed t s r
  | OpDraw => snd (draw t r)
  end.

(** An interleaving: which thread runs which call, in order. *)
Fixpoint run (sched : list (nat * Op)) (r : Runtime) : Runtime :=
  match sched with
  | [] => r
  | (t, o) :: rest => run rest (exec t o r)
  end.

(** *** Frame lemmas: a call only touches the caller's instance *)

Lemma instance_Get t t' r : instance t (Get t' r) = instance t r.
Proof.
  unfold instance, Get; simpl.
  destruct (decide (t' = t)) as [->|Hne].
  - now rewrite lookup_insert_eq.
  - now rewrite lookup_insert_ne.
Qed.

Lemma instance_modify_eq t f r : instance t (modify t f r) = f (instance t r).
Proof. unfold instance at 1, modify; simpl. now rewrite lookup_insert_eq. Qed.

Lemma instance_modify_ne t t' f r :
  t' <> t -> instance t (modify t' f r) = instance t r.
Proof. intros Hne. unfold instance, modify; simpl. now rewrite lookup_insert_ne. Qed.

Lemma instance_exec_ne t t' o r :
  t' <> t -> instance t (exec t' o r) = instance t r.
Proof.
  intros Hne. destruct o; simpl;
    unfold set_mode, set_solver_count, set_root_solver, set_random_seed;
    rewrite ?instance_Get, ?instance_modify_ne by assumption; try reflexivity.
  - unfold rng_stream. destruct (random_generator_ (instance t' r)); simpl.
    + apply instance_Get.
    + now apply instance_modify_ne.
  - unfold draw, rng_stream.
    destruct (random_generator_ (instance t' r)) as [g|]; simpl.
    + destruct (Generator_next (generator_ g)); simpl.
      rewrite instance_modify_ne by assumption. apply instance_Get.
    + destruct (Generator_next _); simpl.
      now rewrite !instance_modify_ne by assumption.
Qed.

Lemma instance_run_others t sched r :
  Forall (fun '(t', _) => t' <> t) sched ->
  instance t (run sched r) = instance t r.
Proof.
  intros Hall. revert r.
  induction Hall as [|[t' o] rest Hne _ IH]; intros r; simpl.
  - reflexivity.
  - rewrite IH. now apply instance_exec_ne.
Qed.

(** C7: [set_mode(m)] followed by [mode()] on the same thread returns [m],
    whatever calls other threads make in between. *)
Theorem mode_set_mode_thread_local :
  forall (t : nat) (m : Brew) (others : list (nat * Op)) (r : Runtime),
    Forall (fun '(t', _) => t' <> t) others ->
    fst (mode t (set_mode t m r)) = m /\
    fst (mode t (run others (set_mode t m r))) = m.
Proof.
  intros t m others r Hothers. unfold mode; simpl. split.
  - unfold set_mode. now rewrite instance_modify_eq.
  - rewrite instance_run_others by assumption.
    unfold set_mode. now rewrite instance_modify_eq.
Qed.

(** *** Reseeding *)

Lemma draw_seeded t r g :
  random_generator_ (instance t r) = Some (mkRNG g) ->
  fst (draw t r) = fst (Generator_next g) /\
  random_generator_ (instance t (snd (draw t r))) =
    Some (mkRNG (snd (Generator_next g))).
Proof.
  intros Hg. unfold draw, rng_stream. rewrite Hg; simpl.
  destruct (Generator_next g) as [x g']; simpl.
  now rewrite instance_modify_eq.
Qed.

Lemma draws_seeded n : forall t r g,
  random_generator_ (instance t r) = Some (mkRNG g) ->
  fst (draws n t r) = Generator_stream n g.
Proof.
  induction n as [|n IH]; intros t r g Hg; simpl.
  - reflexivity.
  - destruct (draw_seeded t r g Hg) as [Hx Hnext].
    destruct (draw t r) as [x r1]; simpl in *.
    specialize (IH t r1 _ Hnext).
    destruct (draws n t r1) as [xs r2]; simpl in *.
    destruct (Generator_next g) as [y g']; simpl in *.
    now subst.
Qed.

Lemma set_random_seed_instance t seed r :
  random_generator_ (instance t (set_random_seed t seed r)) =
    Some (RNG_seeded seed) /\
  curand_seed (curand_generator_ (instance t (set_random_seed t seed r))) = seed.
Proof. unfold set_random_seed. now rewrite instance_modify_eq. Qed.

(** C8: after [set_random_seed(s)] the host-side facade and the device-side
    generator both carry [s], and the draws from [rng_stream()] are the
    stream of the generator seeded with [s]: two runs, from whatever context
    state and default seed, on whatever thread, draw the same sequence. *)
Theorem set_random_seed_deterministic :
  forall (seed : Z) (n : nat) (t1 t2 : nat) (r1 r2 : Runtime),
    fst (rng_stream t1 (set_random_seed t1 seed r1)) = RNG_seeded seed /\
    curand_seed (curand_generator_ (instance t1 (set_random_seed t1 seed r1)))
      = seed /\
    fst (draws n t1 (set_random_seed t1 seed r1)) =
      Generator_stream n (Generator_seeded seed) /\
    fst (draws n t1 (set_random_seed t1 seed r1)) =
      fst (draws n t2 (set_random_seed t2 seed r2)).
Proof.
  intros seed n t1 t2 r1 r2.
  destruct (set_random_seed_instance t1 seed r1) as [H1 Hdev].
  destruct (set_random_seed_instance t2 seed r2) as [H2 _].
  repeat split.
  - unfold rng_stream. now rewrite H1.
  - exact Hdev.
  - now apply draws_seeded.
  - rewrite (draws_seeded n _ _ _ H1). symmetry. now apply draws_seeded.
Qed.

(** *** Further properties of the inline accessors *)

Lemma rng_stream_result t r :
  fst (rng_stream t r) =
    default (RNG_default r) (random_generator_ (instance t r)).
Proof. unfold rng_stream. now destruct (random_generator_ (instance t r)). Qed.

Lemma rng_stream_instance t r :
  instance t (snd (rng_stream t r)) =
    with_random_generator (Some (fst (rng_stream t r))) (instance t r).
Proof.
  unfold rng_stream.
  destruct (random_generator_ (instance t r)) as [g|] eqn:Hg; simpl.
  - rewrite instance_Get. destruct (instance t r); simpl in *. now subst.
  - now rewrite instance_modify_eq.
Qed.

(** X1: [set_solver_count(n)] then [solver_count()], and [set_root_solver(b)]
    then [root_solver()], on the same thread return the value set, whatever
    other threads call in between. *)
Theorem counters_set_get_thread_local :
  forall (t : nat) (n : Z) (b : bool) (others : list (nat * Op)) (r : Runtime),
    Forall (fun '(t', _) => t' <> t) others ->
    fst (solver_count t (run others (set_solver_count t n r))) = n /\
    fst (root_solver t (run others (set_root_solver t b r))) = b.
Proof.
  intros t n b others r Hothers. unfold solver_count, root_solver; simpl.
  rewrite !instance_run_others by assumption.
  unfold set_solver_count, set_root_solver.
  now rewrite !instance_modify_eq.
Qed.

(** X2: Every accessor reads the calling thread's instance only: no sequence of
    calls made by other threads, setters included, changes what [mode()],
    [solver_count()] or [root_solver()] return on this thread, nor the
    thread's [random_generator_]; a facade this thread already has is still
    the one [rng_stream()] returns.  In particular a [set_solver_count] or
    [set_root_solver] made on one thread is not seen on another. *)
Theorem accessors_unaffected_by_other_threads :
  forall (t : nat) (others : list (nat * Op)) (r : Runtime),
    Forall (fun '(t', _) => t' <> t) others ->
    fst (mode t (run others r)) = fst (mode t r) /\
    fst (solver_count t (run others r)) = fst (solver_count t r) /\
    fst (root_solver t (run others r)) = fst (root_solver t r) /\
    random_generator_ (instance t (run others r))
      = random_generator_ (instance t r) /\
    (forall g, random_generator_ (instance t r) = Some g ->
               fst (rng_stream t (run others r)) = g).
Proof.
  intros t others r Hothers.
  unfold mode, solver_count, root_solver; simpl.
  rewrite !instance_run_others by assumption.
  repeat split.
  intros g Hg. rewrite rng_stream_result.
  rewrite instance_run_others by assumption. now rewrite Hg.
Qed.

(** X3: On one thread each setter writes its own member only: [set_mode],
    [set_solver_count] and [set_root_solver] leave what the other two
    getters return, and the thread's [random_generator_], as they were. *)
Theorem setters_write_one_member :
  forall (t : nat) (m : Brew) (n : Z) (b : bool) (r : Runtime),
    (fst (solver_count t (set_mode t m r)) = fst (solver_count t r) /\
     fst (root_solver t (set_mode t m r)) = fst (root_solver t r) /\
     random_generator_ (instance t (set_mode t m r))
       = random_generator_ (instance t r)) /\
    (fst (mode t (set_solver_count t n r)) = fst (mode t r) /\
     fst (root_solver t (set_solver_count t n r)) = fst (root_solver t r) /\
     random_generator_ (instance t (set_solver_count t n r))
       = random_generator_ (instance t r)) /\
    (fst (mode t (set_root_solver t b r)) = fst (mode t r) /\
     fst (solver_count t (set_root_solver t b r)) = fst (solver_count t r) /\
     random_generator_ (instance t (set_root_solver t b r))
       = random_generator_ (instance t r)).
Proof.
  intros t m n b r.
  unfold mode, solver_count, root_solver; simpl.
  unfold set_mode, set_solver_count, set_root_solver.
  rewrite !instance_modify_eq. simpl.
  repeat split.
Qed.

(** X4: [rng_stream()] constructs the facade at most once: after a call the
    thread's [random_generator_] is the facade that was returned, a facade
    already present is returned as it is, a later call on the same thread
    returns the same facade whatever other threads do in between, and the
    mode and the solver counters are not touched. *)
Theorem rng_stream_constructs_once :
  forall (t : nat) (others : list (nat * Op)) (r : Runtime),
    Forall (fun '(t', _) => t' <> t) others ->
    random_generator_ (instance t (snd (rng_stream t r)))
      = Some (fst (rng_stream t r)) /\
    (forall g, random_generator_ (instance t r) = Some g ->
               fst (rng_stream t r) = g /\
               instance t (snd (rng_stream t r)) = instance t r) /\
    fst (rng_stream t (run others (snd (rng_stream t r))))
      = fst (rng_stream t r) /\
    (fst (mode t (snd (rng_stream t r))) = fst (mode t r) /\
     fst (solver_count t (snd (rng_stream t r))) = fst (solver_count t r) /\
     fst (root_solver t (snd (rng_stream t r))) = fst (root_solver t r)).
Proof.
  intros t others r Hothers.
  pose proof (rng_stream_instance t r) as Hinst.
  split; [now rewrite Hinst|].
  split.
  { intros g Hg. rewrite Hinst, rng_stream_result, Hg; simpl.
    split; [reflexivity|].
    destruct (instance t r); simpl in *. now subst. }
  split.
  { rewrite (rng_stream_result t (run _ _)).
    rewrite instance_run_others by assumption.
    now rewrite Hinst. }
  unfold mode, solver_count, root_solver; simpl.
  now rewrite Hinst.
Qed.

End Context_.

(** *** A concrete backend *)

Definition lcg_next (g : Z) : Z * Z := (g mod 97, (75 * g + 74) mod 65537).

Definition sample_new : Caffe Z :=
  mkCaffe Z (mkCurand 0) None CPU 1 true.

Definition sample_runtime : Runtime Z := mkRuntime Z ∅ 12345.

Example draws_sample :
  fst (draws Z id lcg_next sample_new 3 0
         (set_random_seed Z id sample_new 0 7 sample_runtime)) = [7; 17; 88].
Proof. vm_compute. reflexivity. Qed.

Example mode_sample :
  fst (mode Z sample_new 0 (set_mode Z sample_new 0 GPU sample_runtime)) = GPU.
Proof. vm_compute. reflexivity. Qed.

Lemma mode_set_mode_thread_local_witness :
  Forall (fun '(t', _) => t' <> 0%nat)
         [(1%nat, OpSetMode CPU); (2%nat, OpDraw); (1%nat, OpSetRandomSeed 5)] /\
  fst (mode Z sample_new 0
         (run Z id lcg_next sample_new
              [(1%nat, OpSetMode CPU); (2%nat, OpDraw); (1%nat, OpSetRandomSeed 5)]
              (set_mode Z sample_new 0 GPU sample_runtime))) = GPU.
Proof.
  assert (H : Forall (fun '(t', _) => t' <> 0%nat)
         [(1%nat, OpSetMode CPU); (2%nat, OpDraw); (1%nat, OpSetRandomSeed 5)])
    by (repeat constructor; discriminate).
  split; [exact H|].
  exact (proj2 (mode_set_mode_thread_local Z id lcg_next sample_new 0 GPU _
                  sample_runtime H)).
Defined.

Definition sample_others : list (nat * Op) :=
  [(1%nat, OpSetSolverCount 8); (2%nat, OpSetRootSolver false);
   (1%nat, OpSetMode GPU); (2%nat, OpDraw); (1%nat, OpSetRandomSeed 5)].

Lemma sample_others_other : Forall (fun '(t', _) => t' <> 0%nat) sample_others.
Proof. repeat constructor; discriminate. Defined.

Example other_thread_counter_sample :
  fst (solver_count Z sample_new 1
         (run Z id lcg_next sample_new sample_others sample_runtime)) = 8 /\
  fst (solver_count Z sample_new 0
         (run Z id lcg_next sample_new sample_others sample_runtime)) = 1.
Proof. vm_compute. split; reflexivity. Qed.

Lemma counters_set_get_thread_local_witness :
  Forall (fun '(t', _) => t' <> 0%nat) sample_others /\
  fst (solver_count Z sample_new 0
         (run Z id lcg_next sample_new sample_others
              (set_solver_count Z sample_new 0 4 sample_runtime))) = 4 /\
  fst (root_solver Z sample_new 0
         (run Z id lcg_next sample_new sample_others
              (set_root_solver Z sample_new 0 false sample_runtime))) = false.
Proof.
  split; [exact sample_others_other|].
  exact (counters_set_get_thread_local Z id lcg_next sample_new 0 4 false
           sample_others sample_runtime sample_others_other).
Defined.

Definition sample_seeded : Runtime Z :=
  set_random_seed Z id sample_new 0 7 sample_runtime.

Lemma accessors_unaffected_by_other_threads_witness :
  Forall (fun '(t', _) => t' <> 0%nat) sample_others /\
  fst (solver_count Z sample_new 0
         (run Z id lcg_next sample_new sample_others sample_seeded))
    = fst (solver_count Z sample_new 0 sample_seeded) /\
  random_generator_ Z (instance Z sample_new 0 sample_seeded)
    = Some (mkRNG Z 7) /\
  fst (rng_stream Z id sample_new 0
         (run Z id lcg_next sample_new sample_others sample_seeded))
    = mkRNG Z 7.
Proof.
  pose proof (accessors_unaffected_by_other_threads Z id lcg_next sample_new 0
                sample_others sample_seeded sample_others_other)
    as (_ & Hcount & _ & _ & Hrng).
  split; [exact sample_others_other|]. split; [exact Hcount|].
  split; [reflexivity|].
  exact (Hrng (mkRNG Z 7) eq_refl).
Defined.

Lemma rng_stream_constructs_once_witness :
  Forall (fun '(t', _) => t' <> 0%nat) sample_others /\
  fst (rng_stream Z id sample_new 0
         (run Z id lcg_next sample_new sample_others
              (snd (rng_stream Z id sample_new 0 sample_runtime))))
    = fst (rng_stream Z id sample_new 0 sample_runtime).
Proof.
  pose proof (rng_stream_constructs_once Z id lcg_next sample_new 0
                sample_others sample_runtime sample_others_other)
    as (_ & _ & Hagain & _).
  split; [exact sample_others_other|exact Hagain].
Defined.

End Caffe.

(** ** The process-wide [MemoryHandler] (alias [CuMem]) *)

(** [void*], [cudaStream_t] and [size_t] values. *)
Definition NULL : Z := 0.
Definition cudaStreamDefault : Z := 0.

Module MemoryHandler.

(** The data members: [bool using_pool_; bool initialized_;
    std::vector<int> gpus_;] *)
Record MemoryHandler : Type := mkMemoryHandler {
  using_pool_ : bool;
  initialized_ : bool;
  gpus_ : list Z
}.

(** [MemoryHandler() : using_pool_(false), initialized_(false) {}] *)
Definition MemoryHandler_new : MemoryHandler :=
  mkMemoryHandler false false [].

(** [static void setGPUs(const std::vector<int>& gpus) { Get().gpus_ = gpus; }] *)
Definition setGPUs (gpus : list Z) (h : MemoryHandler) : MemoryHandler :=
  mkMemoryHandler (using_pool_ h) (initialized_ h) gpus.

(** [static void usePool() { Get().using_pool_ = true; }] *)
Definition usePool (h : MemoryHandler) : MemoryHandler :=
  mkMemoryHandler true (initialized_ h) (gpus_ h).

(** [[
    static bool usingPool() {
    #ifdef USE_CNMEM
      return Get().using_pool_;
    #else
      return false;
    #endif
    }
    ]] *)
Definition usingPool (cfg : BuildConfig) (h : MemoryHandler) : bool :=
  if USE_CNMEM cfg then using_pool_ h else false.

(** The device runtime (the CUDA allocator and the pool library) is outside
    the repository.  A call either succeeds, giving the new device state, or
    reports an error status ([None]). *)
Class DeviceRuntime (D : Type) : Type := mkDeviceRuntime {
  current_device : D -> Z;
  direct_alloc : Z -> D -> option (Z * D);            (* size *)
  direct_free : Z -> D -> option D;                   (* ptr *)
  pool_setup : list Z -> D -> option D;               (* devices *)
  pool_alloc : Z -> Z -> Z -> D -> option (Z * D);    (* device, stream, size *)
  pool_free : Z -> Z -> D -> option D;                (* ptr, stream *)
  pool_teardown : D -> option D
}.

(** What the member functions of the singleton can touch: the singleton
    behind [MemoryHandler::Get()] and the device. *)
Record Process (D : Type) : Type := mkProcess {
  handler : MemoryHandler;
  device : D
}.
Arguments mkProcess {D} handler device.
Arguments handler {D} _.
Arguments device {D} _.

Definition on_handler {D} (f : MemoryHandler -> MemoryHandler)
  : M (Process D) unit :=
  fun p => Returned tt (mkProcess (f (handler p)) (device p)).

Section Pool.

Context {D : Type} `{DeviceRuntime D}.

(** The spec's [configure(deviceList)]: "records the target device set and
    marks pooling enabled", i.e. [usePool()] and [setGPUs(deviceList)]. *)
Definition configure (gpus : list Z) : M (Process D) unit :=
  on_handler usePool ≫= fun _ => on_handler (setGPUs gpus).

Definition set_initialized (b : bool) (h : MemoryHandler) : MemoryHandler :=
  mkMemoryHandler (using_pool_ h) b (gpus_ h).

(** Modelled from the spec: [MemoryHandler::Init] (declared private in the
    header, body absent).  "performs device-side pool setup across all
    configured devices.  Idempotent: calling twice without an intervening
    destroy() is a no-op guarded by initialized." *)
Definition Init : M (Process D) unit :=
  fun p =>
    if initialized_ (handler p) then Returned tt p
    else
      match pool_setup (gpus_ (handler p)) (device p) with
      | Some d' => Returned tt (mkProcess (set_initialized true (handler p)) d')
      | None => Aborted "pool setup failed" p
      end.

(** Modelled from the spec: [MemoryHandler::allocate_memory] (declared in
    the header, body absent).  "if initialized, serves the request from the
    pool scoped to the calling device/stream; otherwise falls back to a
    direct device allocation. [...] failure is signaled through the device
    API's own error channel, propagated as a fatal allocation error". *)
Definition allocate_memory (size stream : Z) : M (Process D) Z :=
  fun p =>
    let served :=
      if initialized_ (handler p)
      then pool_alloc (current_device (device p)) stream size (device p)
      else direct_alloc size (device p) in
    match served with
    | Some (ptr, d') => Returned ptr (mkProcess (handler p) d')
    | None => Aborted "device allocation failed" p
    end.

(** Modelled from the spec: [MemoryHandler::free_memory] (declared in the
    header, body absent).  "releases memory back to the pool if pooling is
    active for that allocation's origin, else releases directly to the
    device". *)
Definition free_memory (ptr stream : Z) : M (Process D) unit :=
  fun p =>
    let released :=
      if initialized_ (handler p)
      then pool_free ptr stream (device p)
      else direct_free ptr (device p) in
    match released with
    | Some d' => Returned tt (mkProcess (handler p) d')
    | None => Aborted "device free failed" p
    end.

(** Modelled from the spec: the static entry points [mallocGPU] and
    [freeGPU] (declared in the header, bodies absent) are the spec's
    [allocate] and [free] on the singleton. *)
Definition mallocGPU (size stream : Z) : M (Process D) Z :=
  allocate_memory size stream.

Definition freeGPU (ptr stream : Z) : M (Process D) unit :=
  free_memory ptr stream.

Definition reset_flags (h : MemoryHandler) : MemoryHandler :=
  mkMemoryHandler false false (gpus_ h).

(** Modelled from the spec: [MemoryHandler::destroy] (declared in the
    header, body absent).  "tears down the pool, returns reserved device
    memory, resets initialized and enabled to false.  Safe to call when
    never initialized (no-op)": without an initialized pool there is
    nothing to tear down on the device. *)
Definition destroy : M (Process D) unit :=
  fun p =>
    if initialized_ (handler p) then
      match pool_teardown (device p) with
      | Some d' => Returned tt (mkProcess (reset_flags (handler p)) d')
      | None => Aborted "pool teardown failed" p
      end
    else Returned tt (mkProcess (reset_flags (handler p)) (device p)).

(** The allocator's life: construction of the singleton, then calls on its
    interface.  [Init] is only run on a configured allocator ("configure
    must be called before initialize"). *)
Inductive step : Process D -> Process D -> Prop :=
| step_usePool p p' :
    on_handler usePool p = Returned tt p' -> step p p'
| step_setGPUs gpus p p' :
    on_handler (setGPUs gpus) p = Returned tt p' -> step p p'
| step_Init p p' :
    using_pool_ (handler p) = true -> Init p = Returned tt p' -> step p p'
| step_mallocGPU size stream ptr p p' :
    mallocGPU size stream p = Returned ptr p' -> step p p'
| step_freeGPU ptr stream p p' :
    freeGPU ptr stream p = Returned tt p' -> step p p'
| step_destroy p p' :
    destroy p = Returned tt p' -> step p p'.

Inductive reachable : Process D -> Prop :=
| reachable_new d : reachable (mkProcess MemoryHandler_new d)
| reachable_step p p' : reachable p -> step p p' -> reachable p'.

(** The data-model invariant. *)
Definition invariant (h : MemoryHandler) : Prop :=
  initialized_ h = true -> using_pool_ h = true.

(** The device runtime's contract used below: a successful allocation does
    not hand out the null pointer. *)
Definition allocs_nonnull : Prop :=
  (forall size d ptr d', direct_alloc size d = Some (ptr, d') -> ptr <> NULL) /\
  (forall dev stream size d ptr d',
      pool_alloc dev stream size d = Some (ptr, d') -> ptr <> NULL).

(** *** Initialization *)

Lemma Init_guarded p :
  initialized_ (handler p) = true -> Init p = Returned tt p.
Proof. intros Hi. unfold Init. now rewrite Hi. Qed.

Lemma Init_Returned p p' :
  Init p = Returned tt p' ->
  initialized_ (handler p') = true /\
  using_pool_ (handler p') = using_pool_ (handler p) /\
  gpus_ (handler p') = gpus_ (handler p).
Proof.
  unfold Init. destruct (initialized_ (handler p)) eqn:Hi.
  - intros [= <-]. auto.
  - destruct (pool_setup _ _) as [d'|]; [|discriminate].
    intros [= <-]. simpl. auto.
Qed.

Lemma configure_Returned gpus p :
  configure gpus p =
    Returned tt (mkProcess (setGPUs gpus (usePool (handler p))) (device p)).
Proof. reflexivity. Qed.

(** C4: once [configure(devices)] and a first [Init()] have gone through, a
    second [Init()] returns at the [initialized_] guard: the allocator and
    the device are left exactly as they were, so nothing is reserved a
    second time, and the three-call sequence ends in the state of the
    two-call one. *)
Theorem Init_idempotent :
  forall (gpus : list Z) (p p1 : Process D),
    (configure gpus ≫= fun _ => Init) p = Returned tt p1 ->
    initialized_ (handler p1) = true /\
    Init p1 = Returned tt p1 /\
    (configure gpus ≫= fun _ => Init ≫= fun _ => Init) p = Returned tt p1.
Proof.
  intros gpus p p1 Hfirst.
  assert (Hrun : Init (mkProcess (setGPUs gpus (usePool (handler p))) (device p))
                 = Returned tt p1) by exact Hfirst.
  destruct (Init_Returned _ _ Hrun) as [Hi _].
  pose proof (Init_guarded p1 Hi) as Hsecond.
  repeat split; try assumption.
  change ((Init ≫= fun _ => Init)
            (mkProcess (setGPUs gpus (usePool (handler p))) (device p))
          = Returned tt p1).
  unfold mbind, M_bind. now rewrite (bind_Returned _ _ _ _ _ Hrun).
Qed.

(** *** Allocation *)

Lemma destroy_Returned p p' :
  destroy p = Returned tt p' ->
  initialized_ (handler p') = false /\ using_pool_ (handler p') = false.
Proof.
  unfold destroy. destruct (initialized_ (handler p)).
  - destruct (pool_teardown _) as [d'|]; [|discriminate].
    intros [= <-]. auto.
  - intros [= <-]. auto.
Qed.

Lemma mallocGPU_pooled size stream p :
  initialized_ (handler p) = true ->
  mallocGPU size stream p =
    match pool_alloc (current_device (device p)) stream size (device p) with
    | Some (ptr, d') => Returned ptr (mkProcess (handler p) d')
    | None => Aborted "device allocation failed" p
    end.
Proof. intros Hi. unfold mallocGPU, allocate_memory. now rewrite Hi. Qed.

Lemma mallocGPU_direct size stream p :
  initialized_ (handler p) = false ->
  mallocGPU size stream p =
    match direct_alloc size (device p) with
    | Some (ptr, d') => Returned ptr (mkProcess (handler p) d')
    | None => Aborted "device allocation failed" p
    end.
Proof. intros Hi. unfold mallocGPU, allocate_memory. now rewrite Hi. Qed.

(** C5: with an initialized pool [mallocGPU] is served by the pool for the
    calling device and stream; otherwise, in particular after [destroy()],
    by the direct device allocator.  On either path the call returns a
    non-null pointer and leaves the allocator's own state alone, or ends in
    the same fatal allocation error with nothing changed. *)
Theorem mallocGPU_pool_or_fallback :
  allocs_nonnull ->
  forall (size stream : Z) (p : Process D),
    (initialized_ (handler p) = true ->
     mallocGPU size stream p =
       match pool_alloc (current_device (device p)) stream size (device p) with
       | Some (ptr, d') => Returned ptr (mkProcess (handler p) d')
       | None => Aborted "device allocation failed" p
       end) /\
    (initialized_ (handler p) = false ->
     mallocGPU size stream p =
       match direct_alloc size (device p) with
       | Some (ptr, d') => Returned ptr (mkProcess (handler p) d')
       | None => Aborted "device allocation failed" p
       end) /\
    (forall p0, destroy p0 = Returned tt p ->
     mallocGPU size stream p =
       match direct_alloc size (device p) with
       | Some (ptr, d') => Returned ptr (mkProcess (handler p) d')
       | None => Aborted "device allocation failed" p
       end) /\
    (forall ptr p', mallocGPU size stream p = Returned ptr p' ->
                    ptr <> NULL /\ handler p' = handler p) /\
    (forall msg p', mallocGPU size stream p = Aborted msg p' ->
                    msg = "device allocation failed"%string /\ p' = p).
Proof.
  intros [Hdirect Hpool] size stream p.
  split; [apply mallocGPU_pooled|].
  split; [apply mallocGPU_direct|].
  split.
  { intros p0 Hd. apply mallocGPU_direct.
    now destruct (destroy_Returned _ _ Hd). }
  unfold mallocGPU, allocate_memory.
  destruct (initialized_ (handler p)).
  - destruct (pool_alloc _ _ _ _) as [[q d']|] eqn:E; split.
    + intros ptr p' [= <- <-]. split; [eauto|reflexivity].
    + discriminate.
    + discriminate.
    + now intros msg p' [= <- <-].
  - destruct (direct_alloc _ _) as [[q d']|] eqn:E; split.
    + intros ptr p' [= <- <-]. split; [eauto|reflexivity].
    + discriminate.
    + discriminate.
    + now intros msg p' [= <- <-].
Qed.

(** *** The invariant *)

Lemma step_invariant p p' :
  step p p' -> invariant (handler p) -> invariant (handler p').
Proof.
  unfold invariant.
  intros Hstep Hinv. destruct Hstep as
    [p p' E | gpus p p' E | p p' Hen E | size stream ptr p p' E
    | ptr stream p p' E | p p' E].
  - injection E as <-. simpl. auto.
  - injection E as <-. simpl. auto.
  - destruct (Init_Returned _ _ E) as (_ & Hu & _). intros _. congruence.
  - unfold mallocGPU, allocate_memory in E.
    destruct (if initialized_ (handler p) then _ else _) as [[q d']|];
      [|discriminate].
    injection E as _ <-. exact Hinv.
  - unfold freeGPU, free_memory in E.
    destruct (if initialized_ (handler p) then _ else _) as [d'|];
      [|discriminate].
    injection E as <-. exact Hinv.
  - destruct (destroy_Returned _ _ E) as [Hi _]. congruence.
Qed.

Lemma reachable_invariant p : reachable p -> invariant (handler p).
Proof.
  induction 1 as [d | p p' _ IH Hstep].
  - unfold invariant; simpl. discriminate.
  - eapply step_invariant; eauto.
Qed.

(** C6: both flags are false in a newly constructed [MemoryHandler];
    [initialized_] implies [using_pool_] in every reachable state;
    [destroy()] leaves both flags false; and on an allocator that is not
    initialized [destroy()] cannot fail and touches nothing on the device,
    leaving a never-configured allocator exactly as it found it. *)
Theorem initialized_implies_enabled :
  (using_pool_ MemoryHandler_new = false /\
   initialized_ MemoryHandler_new = false) /\
  (forall p : Process D,
      reachable p -> initialized_ (handler p) = true ->
      using_pool_ (handler p) = true) /\
  (forall p p' : Process D,
      destroy p = Returned tt p' ->
      initialized_ (handler p') = false /\ using_pool_ (handler p') = false) /\
  (forall p : Process D,
      initialized_ (handler p) = false ->
      destroy p = Returned tt (mkProcess (reset_flags (handler p)) (device p)) /\
      (using_pool_ (handler p) = false -> destroy p = Returned tt p)) /\
  (forall d : D,
      destroy (mkProcess MemoryHandler_new d)
      = Returned tt (mkProcess MemoryHandler_new d)).
Proof.
  split; [split; reflexivity|].
  split; [intros p Hr; exact (reachable_invariant p Hr)|].
  split; [exact destroy_Returned|].
  split; [|reflexivity].
  intros p Hi. unfold destroy. rewrite Hi. split; [reflexivity|].
  intros Hu. destruct p as [[u i g] d]; simpl in *. now subst.
Qed.

End Pool.

(** *** A small device for running the model

    A bump allocator with a capacity; the pool serves only the devices it
    was set up for, and setups are counted. *)

Record SimDevice : Type := mkSim {
  sim_current : Z;
  sim_pools : list Z;
  sim_setups : nat;
  sim_brk : positive;
  sim_limit : Z
}.

Definition sim_bump (size : Z) (d : SimDevice) : option (Z * SimDevice) :=
  if (0 <=? size) && (Z.pos (sim_brk d) + size <=? sim_limit d)
  then Some (Z.pos (sim_brk d),
             mkSim (sim_current d) (sim_pools d) (sim_setups d)
                   (sim_brk d + Z.to_pos (size + 1)) (sim_limit d))
  else None.

#[global] Instance sim_runtime : DeviceRuntime SimDevice := {|
  current_device := sim_current;
  direct_alloc := sim_bump;
  direct_free := fun _ d => Some d;
  pool_setup := fun gpus d =>
    Some (mkSim (sim_current d) gpus (S (sim_setups d)) (sim_brk d) (sim_limit d));
  pool_alloc := fun dev _ size d =>
    if existsb (Z.eqb dev) (sim_pools d) then sim_bump size d else None;
  pool_free := fun _ _ d => Some d;
  pool_teardown := fun d =>
    Some (mkSim (sim_current d) [] (sim_setups d) (sim_brk d) (sim_limit d))
|}.

Definition sim_fresh : Process SimDevice :=
  mkProcess MemoryHandler_new (mkSim 0 [] 0 4096 65536).

Lemma sim_allocs_nonnull : allocs_nonnull (D := SimDevice).
Proof.
  assert (Hb : forall size d ptr d', sim_bump size d = Some (ptr, d') -> ptr <> NULL).
  { intros size d ptr d'. unfold sim_bump.
    destruct (_ && _); [|discriminate]. intros [= <- _]. discriminate. }
  split.
  - exact Hb.
  - intros dev stream size d ptr d'. simpl.
    destruct (existsb _ _); [apply Hb|discriminate].
Qed.

Example sim_configure_Init :
  (configure [0; 1] ≫= fun _ => Init) sim_fresh =
    Returned tt (mkProcess (mkMemoryHandler true true [0; 1])
                           (mkSim 0 [0; 1] 1 4096 65536)).
Proof. reflexivity. Qed.

Example sim_pooled_alloc :
  (configure [0; 1] ≫= fun _ => Init ≫= fun _ => mallocGPU 1024 0) sim_fresh =
    Returned 4096 (mkProcess (mkMemoryHandler true true [0; 1])
                             (mkSim 0 [0; 1] 1 5121 65536)).
Proof. reflexivity. Qed.

Example sim_alloc_after_destroy :
  (configure [0; 1] ≫= fun _ => Init ≫= fun _ => destroy
     ≫= fun _ => mallocGPU 1024 0) sim_fresh =
    Returned 4096 (mkProcess (mkMemoryHandler false false [0; 1])
                             (mkSim 0 [] 1 5121 65536)).
Proof. reflexivity. Qed.

Example sim_alloc_too_large :
  mallocGPU 100000 0 sim_fresh = Aborted "device allocation failed" sim_fresh.
Proof. reflexivity. Qed.

Definition sim_ready : Process SimDevice :=
  mkProcess (mkMemoryHandler true true [0; 1]) (mkSim 0 [0; 1] 1 4096 65536).

Lemma Init_idempotent_witness :
  (configure [0; 1] ≫= fun _ => Init) sim_fresh = Returned tt sim_ready /\
  initialized_ (handler sim_ready) = true /\
  Init sim_ready = Returned tt sim_ready /\
  (configure [0; 1] ≫= fun _ => Init ≫= fun _ => Init) sim_fresh
    = Returned tt sim_ready.
Proof.
  split; [reflexivity|].
  apply (Init_idempotent [0; 1] sim_fresh sim_ready). reflexivity.
Defined.

Lemma mallocGPU_pool_or_fallback_witness :
  allocs_nonnull (D := SimDevice) /\
  initialized_ (handler sim_ready) = true /\
  mallocGPU 1024 cudaStreamDefault sim_ready =
    Returned 4096 (mkProcess (handler sim_ready) (mkSim 0 [0; 1] 1 5121 65536)) /\
  (4096 <> NULL /\
   handler (mkProcess (handler sim_ready) (mkSim 0 [0; 1] 1 5121 65536))
     = handler sim_ready).
Proof.
  pose proof (mallocGPU_pool_or_fallback sim_allocs_nonnull
                1024 cudaStreamDefault sim_ready) as (Hpool & _ & _ & Hok & _).
  split; [exact sim_allocs_nonnull|].
  split; [reflexivity|].
  split; [exact (Hpool eq_refl)|].
  exact (Hok 4096 _ eq_refl).
Defined.

Lemma sim_ready_reachable : reachable sim_ready.
Proof.
  eapply reachable_step; [eapply reachable_step; [eapply reachable_step|]|].
  - apply (reachable_new (mkSim 0 [] 0 4096 65536)).
  - apply step_usePool. reflexivity.
  - apply (step_setGPUs [0; 1]). reflexivity.
  - apply step_Init; reflexivity.
Qed.

Lemma initialized_implies_enabled_witness :
  reachable sim_ready /\
  initialized_ (handler sim_ready) = true /\
  using_pool_ (handler sim_ready) = true /\
  destroy sim_ready =
    Returned tt (mkProcess (mkMemoryHandler false false [0; 1])
                           (mkSim 0 [] 1 4096 65536)) /\
  initialized_ (handler sim_fresh) = false /\
  destroy sim_fresh = Returned tt sim_fresh.
Proof.
  pose proof (initialized_implies_enabled (D := SimDevice))
    as (_ & Hinv & Hreset & Hnoop & _).
  split; [exact sim_ready_reachable|].
  split; [reflexivity|].
  split; [exact (Hinv sim_ready sim_ready_reachable eq_refl)|].
  split; [reflexivity|].
  split; [reflexivity|].
  exact (proj2 (Hnoop sim_fresh eq_refl) eq_refl).
Defined.

(** *** The inline part of the interface

    [usePool()] and [setGPUs()] are the only members defined in the header
    that write the singleton. *)

Inductive InlineCall : Type :=
| InUsePool
| InSetGPUs (gpus : list Z).

Definition inline_call (c : InlineCall) (h : MemoryHandler) : MemoryHandler :=
  match c with
  | InUsePool => usePool h
  | InSetGPUs gpus => setGPUs gpus h
  end.

Definition inline_calls (cs : list InlineCall) (h : MemoryHandler)
  : MemoryHandler :=
  fold_left (fun h c => inline_call c h) cs h.

Definition is_usePool (c : InlineCall) : bool :=
  match c with
  | InUsePool => true
  | InSetGPUs _ => false
  end.

(** The argument of the last [setGPUs] in a sequence, if any. *)
Definition last_setGPUs (cs : list InlineCall) (before : list Z) : list Z :=
  fold_left (fun acc c => match c with
                          | InUsePool => acc
                          | InSetGPUs gpus => gpus
                          end) cs before.

(** X5: Whatever sequence of [usePool()] and [setGPUs()] calls is made, in any
    order: [initialized_] is left alone, [using_pool_] is on exactly if it
    was on before or [usePool()] occurs in the sequence (no inline member
    turns it off), [gpus_] is the list of the last [setGPUs], and
    [usingPool()] additionally requires [USE_CNMEM]. *)
Theorem inline_calls_state :
  forall (cfg : BuildConfig) (cs : list InlineCall) (h : MemoryHandler),
    initialized_ (inline_calls cs h) = initialized_ h /\
    using_pool_ (inline_calls cs h) = using_pool_ h || existsb is_usePool cs /\
    gpus_ (inline_calls cs h) = last_setGPUs cs (gpus_ h) /\
    usingPool cfg (inline_calls cs h)
      = USE_CNMEM cfg && (using_pool_ h || existsb is_usePool cs) /\
    usingPool cfg (inline_calls cs MemoryHandler_new)
      = USE_CNMEM cfg && existsb is_usePool cs.
Proof.
  intros cfg cs.
  assert (Hstate : forall h,
             initialized_ (inline_calls cs h) = initialized_ h /\
             using_pool_ (inline_calls cs h)
               = using_pool_ h || existsb is_usePool cs /\
             gpus_ (inline_calls cs h) = last_setGPUs cs (gpus_ h)).
  { induction cs as [|c cs IH]; intros h; simpl.
    - now rewrite orb_false_r.
    - destruct (IH (inline_call c h)) as (Hi & Hu & Hg).
      unfold inline_calls in *. rewrite Hi, Hu.
      unfold last_setGPUs in *. rewrite Hg.
      destruct c; simpl; repeat split.
      now rewrite orb_true_r. }
  intros h. destruct (Hstate h) as (Hi & Hu & Hg).
  repeat split; try assumption.
  - unfold usingPool. rewrite Hu. now destruct (USE_CNMEM cfg).
  - unfold usingPool. destruct (Hstate MemoryHandler_new) as (_ & Hu' & _).
    rewrite Hu'. now destruct (USE_CNMEM cfg).
Qed.

Example inline_calls_sample :
  inline_calls [InSetGPUs [0]; InUsePool; InSetGPUs [2; 3]] MemoryHandler_new
    = mkMemoryHandler true false [2; 3].
Proof. reflexivity. Qed.

End MemoryHandler.

(** ** The scoped [MemoryHandlerActivator] (alias [CuMemActivator]) *)

Module MemoryHandlerActivator.

Import MemoryHandler.

(** Calls made on [MemoryHandler]'s static interface, in program order. *)
Inductive Call : Type :=
| CallUsePool
| CallSetGPUs (gpus : list Z)
| CallMallocGPU (size stream : Z)
| CallFreeGPU (ptr stream : Z)
| CallDestroy.

(** The process together with the record of those calls. *)
Record Traced (D : Type) : Type := mkTraced {
  proc : Process D;
  calls : list Call
}.
Arguments mkTraced {D} proc calls.
Arguments proc {D} _.
Arguments calls {D} _.

(** A call on the allocator: it is recorded, then its body runs on the
    process.  The record is kept when the body ends in a fatal log. *)
Definition call {D A} (c : Call) (body : M (Process D) A) : M (Traced D) A :=
  fun w =>
    match body (proc w) with
    | Returned a p' => Returned a (mkTraced p' (calls w ++ [c]))
    | Aborted msg p' => Aborted msg (mkTraced p' (calls w ++ [c]))
    end.

(** [private: int using_pool_;] *)
Record MemoryHandlerActivator : Type := mkActivator { using_pool_ : Z }.

(** How control leaves a block.  The destructor of an automatic object runs
    on each of them; a fatal log ends the process instead. *)
Inductive exit_path : Type := FallThrough | EarlyReturn | Unwinding.

(** Whether a record of calls contains an allocate/free round trip: a
    [mallocGPU] directly followed by a [freeGPU]. *)
Fixpoint has_round_trip (cs : list Call) : bool :=
  match cs with
  | [] => false
  | CallMallocGPU _ _ :: rest =>
      match rest with
      | CallFreeGPU _ _ :: _ => true
      | _ => has_round_trip rest
      end
  | _ :: rest => has_round_trip rest
  end.

Section Activator.

Context {D : Type}.

(** The out-of-line members of [MemoryHandler] the activator calls; the
    header only declares them. *)
Variable mallocGPU : Z -> Z -> M (Process D) Z.
Variable freeGPU : Z -> Z -> M (Process D) unit.
Variable destroy : M (Process D) unit.

(** [[
    explicit MemoryHandlerActivator(const std::vector<int>& gpus)
              : using_pool_(false) {
      if (gpus.size() > 0) {
        using_pool_ = true;
        MemoryHandler::usePool();
        MemoryHandler::setGPUs(gpus);
    #ifndef CPU_ONLY
        void* temp;
        MemoryHandler::mallocGPU(&temp, 4);
        MemoryHandler::freeGPU(temp);
    #endif
      }
    }
    ]] *)
Definition smoke_test (cfg : BuildConfig) : M (Traced D) unit :=
  if CPU_ONLY cfg then ret tt
  else
    call (CallMallocGPU 4 cudaStreamDefault) (mallocGPU 4 cudaStreamDefault)
      ≫= fun temp =>
    call (CallFreeGPU temp cudaStreamDefault) (freeGPU temp cudaStreamDefault).

Definition ctor (cfg : BuildConfig) (gpus : list Z)
  : M (Traced D) MemoryHandlerActivator :=
  if (0 <? length gpus)%nat then
    call CallUsePool (on_handler usePool) ≫= fun _ =>
    call (CallSetGPUs gpus) (on_handler (setGPUs gpus)) ≫= fun _ =>
    smoke_test cfg ≫= fun _ =>
    ret (mkActivator 1)
  else ret (mkActivator 0).

(** [[
    ~MemoryHandlerActivator() {
      if (using_pool_) {
        MemoryHandler::destroy();
      }
    }
    ]] *)
Definition dtor (a : MemoryHandlerActivator) : M (Traced D) unit :=
  if using_pool_ a =? 0 then ret tt else call CallDestroy destroy.

(** A block that declares an activator and then runs [body]. *)
Definition scope (cfg : BuildConfig) (gpus : list Z)
    (body : M (Traced D) exit_path) : M (Traced D) exit_path :=
  ctor cfg gpus ≫= fun a =>
  body ≫= fun e =>
  dtor a ≫= fun _ =>
  ret e.

(** The states a run of statements goes through: the one it starts in and
    the one after each statement, up to a fatal log. *)
Fixpoint visited (steps : list (M (Traced D) unit)) (w : Traced D)
  : list (Traced D) :=
  w :: match steps with
       | [] => []
       | c :: rest =>
           match c w with
           | Returned _ w' => visited rest w'
           | Aborted _ w' => [w']
           end
       end.

(** The states a block with an activator goes through: before the
    declaration, after the constructor, after each statement of the body,
    and after the destructor. *)
Definition scope_visited (cfg : BuildConfig) (gpus : list Z)
    (steps : list (M (Traced D) unit)) (w : Traced D) : list (Traced D) :=
  w :: match ctor cfg gpus w with
       | Returned a w1 => visited (steps ++ [dtor a]) w1
       | Aborted _ w1 => [w1]
       end.

(** A statement that leaves [usingPool()] false if it was. *)
Definition keeps_pool_off (cfg : BuildConfig) (c : M (Traced D) unit) : Prop :=
  forall w, usingPool cfg (handler (proc w)) = false ->
            usingPool cfg (handler (proc (final_state (c w)))) = false.

(** *** Constructor and destructor, case by case *)

Lemma nonempty_size (gpus : list Z) : gpus <> [] -> (0 <? length gpus)%nat = true.
Proof. destruct gpus; [congruence|reflexivity]. Qed.

Lemma ctor_empty cfg w : ctor cfg [] w = Returned (mkActivator 0) w.
Proof. reflexivity. Qed.

Lemma dtor_inactive w : dtor (mkActivator 0) w = Returned tt w.
Proof. reflexivity. Qed.

Lemma dtor_active w :
  calls (final_state (dtor (mkActivator 1) w)) = calls w ++ [CallDestroy] /\
  proc (final_state (dtor (mkActivator 1) w)) = final_state (destroy (proc w)).
Proof.
  unfold dtor, call; simpl. destruct (destroy (proc w)); simpl; auto.
Qed.

Lemma ctor_activator cfg gpus w a w1 :
  ctor cfg gpus w = Returned a w1 ->
  a = mkActivator (if (0 <? length gpus)%nat then 1 else 0).
Proof.
  unfold ctor. destruct (0 <? length gpus)%nat.
  - unfold mbind, M_bind, bind, call, on_handler; simpl.
    destruct (smoke_test cfg _) as [u w'|msg w']; [|discriminate].
    now intros [= <- _].
  - now intros [= <- _].
Qed.

Lemma scope_end cfg gpus body w a w1 e w2 :
  ctor cfg gpus w = Returned a w1 ->
  body w1 = Returned e w2 ->
  scope cfg gpus body w = (dtor a ≫= fun _ => ret e) w2.
Proof.
  intros Hc Hb. unfold scope, mbind, M_bind.
  rewrite (bind_Returned _ _ _ _ _ Hc).
  now rewrite (bind_Returned _ _ _ _ _ Hb).
Qed.

Lemma final_state_then_ret {A} (c : M (Traced D) unit) (e : A) w :
  final_state ((c ≫= fun _ => ret e) w) = final_state (c w).
Proof. unfold mbind, M_bind, bind. now destruct (c w). Qed.

Lemma scope_destroys cfg gpus body w a w1 e w2 :
  gpus <> [] ->
  ctor cfg gpus w = Returned a w1 ->
  body w1 = Returned e w2 ->
  calls (final_state (scope cfg gpus body w)) = calls w2 ++ [CallDestroy] /\
  proc (final_state (scope cfg gpus body w)) = final_state (destroy (proc w2)).
Proof.
  intros Hne Hc Hb.
  rewrite (scope_end _ _ _ _ _ _ _ _ Hc Hb), final_state_then_ret.
  rewrite (ctor_activator _ _ _ _ _ Hc), (nonempty_size _ Hne).
  apply dtor_active.
Qed.

Lemma scope_empty cfg body w : scope cfg [] body w = body w.
Proof.
  unfold scope, mbind, M_bind, bind. rewrite ctor_empty.
  destruct (body w) as [e w'|msg w']; reflexivity.
Qed.

(** C1: if the constructor completed and control leaves the block, by
    whichever exit path, the destructor of an activator built from a
    non-empty list makes exactly one call, [destroy()], which runs on the
    process as the body left it; built from the empty list it makes none,
    and the block ends in the state the body ended in. *)
Theorem destroy_once_at_scope_end :
  forall (cfg : BuildConfig) (gpus : list Z) (body : M (Traced D) exit_path)
         (w w1 w2 : Traced D) (a : MemoryHandlerActivator) (e : exit_path),
    ctor cfg gpus w = Returned a w1 ->
    body w1 = Returned e w2 ->
    (gpus <> [] ->
     calls (final_state (dtor a w2)) = calls w2 ++ [CallDestroy] /\
     calls (final_state (scope cfg gpus body w)) = calls w2 ++ [CallDestroy] /\
     proc (final_state (scope cfg gpus body w)) = final_state (destroy (proc w2))) /\
    (gpus = [] ->
     dtor a w2 = Returned tt w2 /\
     scope cfg gpus body w = Returned e w2).
Proof.
  intros cfg gpus body w w1 w2 a e Hc Hb. split.
  - intros Hne.
    destruct (scope_destroys cfg gpus body w a w1 e w2 Hne Hc Hb) as [Hcalls Hproc].
    split; [|split; assumption].
    rewrite (ctor_activator _ _ _ _ _ Hc), (nonempty_size _ Hne).
    apply dtor_active.
  - intros ->. rewrite ctor_empty in Hc. injection Hc as <- <-.
    split; [reflexivity|]. now rewrite scope_empty.
Qed.

(** The state after [usePool()] and [setGPUs(gpus)]. *)
Definition configured (gpus : list Z) (w : Traced D) : Traced D :=
  mkTraced (mkProcess (setGPUs gpus (usePool (handler (proc w))))
                      (device (proc w)))
           (calls w ++ [CallUsePool; CallSetGPUs gpus]).

(** C2 (as amended): the constructor with a non-empty list first calls
    [usePool()], then [setGPUs(gpus)]; in a build without [CPU_ONLY] it then
    calls [mallocGPU(&temp, 4)] on the default stream and, if that returns,
    [freeGPU] on the pointer it returned; in a [CPU_ONLY] build it makes no
    further call. *)
Theorem ctor_enables_then_round_trip :
  forall (cfg : BuildConfig) (gpus : list Z) (w : Traced D),
    gpus <> [] ->
    MemoryHandler.using_pool_ (handler (proc (configured gpus w))) = true /\
    gpus_ (handler (proc (configured gpus w))) = gpus /\
    (CPU_ONLY cfg = true ->
     ctor cfg gpus w = Returned (mkActivator 1) (configured gpus w)) /\
    (CPU_ONLY cfg = false ->
     match mallocGPU 4 cudaStreamDefault (proc (configured gpus w)) with
     | Returned temp p3 =>
         match freeGPU temp cudaStreamDefault p3 with
         | Returned _ p4 =>
             ctor cfg gpus w =
               Returned (mkActivator 1)
                 (mkTraced p4
                    (calls w ++ [CallUsePool; CallSetGPUs gpus;
                                 CallMallocGPU 4 cudaStreamDefault;
                                 CallFreeGPU temp cudaStreamDefault]))
         | Aborted msg p4 =>
             ctor cfg gpus w =
               Aborted msg
                 (mkTraced p4
                    (calls w ++ [CallUsePool; CallSetGPUs gpus;
                                 CallMallocGPU 4 cudaStreamDefault;
                                 CallFreeGPU temp cudaStreamDefault]))
         end
     | Aborted msg p3 =>
         ctor cfg gpus w =
           Aborted msg
             (mkTraced p3
                (calls w ++ [CallUsePool; CallSetGPUs gpus;
                             CallMallocGPU 4 cudaStreamDefault]))
     end).
Proof.
  intros cfg gpus w Hne. split; [reflexivity|]. split; [reflexivity|].
  unfold ctor. rewrite (nonempty_size _ Hne).
  unfold mbind, M_bind, bind, call, on_handler, smoke_test, configured; simpl.
  rewrite <- !app_assoc; simpl.
  split; intros ->; simpl.
  - reflexivity.
  - unfold mbind, M_bind, bind, call; simpl.
    destruct (mallocGPU 4 cudaStreamDefault _) as [temp p3|msg p3]; simpl.
    + destruct (freeGPU temp cudaStreamDefault p3) as [[] p4|msg p4]; simpl;
        now rewrite <- !app_assoc.
    + now rewrite <- !app_assoc.
Qed.

(** *** Invariants along a block *)

Lemma visited_invariant (P : Traced D -> Prop) steps :
  Forall (fun c => forall w, P w -> P (final_state (c w))) steps ->
  forall w, P w -> Forall P (visited steps w).
Proof.
  induction 1 as [|c rest Hc _ IH]; intros w Hw; simpl.
  - constructor; [assumption|constructor].
  - constructor; [assumption|].
    specialize (Hc w Hw). destruct (c w) as [u w'|msg w']; simpl in Hc.
    + now apply IH.
    + constructor; [assumption|constructor].
Qed.

(** C3: an activator built from the empty list makes no call on the
    allocator and changes nothing, neither in its constructor nor in its
    destructor, so the block behaves as its body alone; if [usingPool()] was
    false when the block was entered and no statement of the body turns it
    on, it is false at every point of the block. *)
Theorem empty_activation_no_effects :
  forall (cfg : BuildConfig) (steps : list (M (Traced D) unit)) (w : Traced D),
    usingPool cfg (handler (proc w)) = false ->
    Forall (keeps_pool_off cfg) steps ->
    ctor cfg [] w = Returned (mkActivator 0) w /\
    (forall w', dtor (mkActivator 0) w' = Returned tt w') /\
    (forall body, scope cfg [] body w = body w) /\
    Forall (fun w' => usingPool cfg (handler (proc w')) = false)
           (scope_visited cfg [] steps w).
Proof.
  intros cfg steps w Hoff Hsteps.
  split; [reflexivity|]. split; [reflexivity|].
  split; [intros body; apply scope_empty|].
  unfold scope_visited. rewrite ctor_empty.
  constructor; [assumption|].
  apply visited_invariant; [|assumption].
  apply Forall_app. split; [exact Hsteps|].
  constructor; [|constructor]. intros w' Hw'. exact Hw'.
Qed.

(** C10: without [USE_CNMEM], [usingPool()] is false in every state, also
    right after [usePool()] has set [using_pool_]; a block whose activator
    was built from a non-empty list sees [usingPool()] false at every point,
    whatever its body does, and its destructor still calls [destroy()]. *)
Theorem usingPool_false_without_cnmem :
  forall (cfg : BuildConfig),
    USE_CNMEM cfg = false ->
    (forall h, usingPool cfg h = false) /\
    (forall h, MemoryHandler.using_pool_ (usePool h) = true /\
               usingPool cfg (usePool h) = false) /\
    (forall (gpus : list Z) (steps : list (M (Traced D) unit)) (w : Traced D),
        gpus <> [] ->
        Forall (fun w' => usingPool cfg (handler (proc w')) = false)
               (scope_visited cfg gpus steps w) /\
        (forall body a w1 e w2,
            ctor cfg gpus w = Returned a w1 ->
            body w1 = Returned e w2 ->
            calls (final_state (scope cfg gpus body w))
              = calls w2 ++ [CallDestroy])).
Proof.
  intros cfg Hcfg.
  assert (Hoff : forall h, usingPool cfg h = false)
    by (intros h; unfold usingPool; now rewrite Hcfg).
  split; [exact Hoff|].
  split; [intros h; split; [reflexivity|apply Hoff]|].
  intros gpus steps w Hne. split.
  - apply Forall_forall. intros w' _. apply Hoff.
  - intros body a w1 e w2 Hc Hb.
    exact (proj1 (scope_destroys cfg gpus body w a w1 e w2 Hne Hc Hb)).
Qed.

(** *** What construction and destruction can and cannot do *)

Definition is_destroy (c : Call) : bool :=
  match c with
  | CallDestroy => true
  | _ => false
  end.

(** The calls the destructors of a block contribute for a device list. *)
Definition destroy_calls (gpus : list Z) : list Call :=
  if (0 <? length gpus)%nat then [CallDestroy] else [].

Lemma ctor_nonempty cfg gpus w :
  gpus <> [] ->
  ctor cfg gpus w =
    (smoke_test cfg ≫= fun _ => ret (mkActivator 1)) (configured gpus w).
Proof.
  intros Hne. unfold ctor. rewrite (nonempty_size _ Hne).
  unfold mbind, M_bind, bind, call, on_handler, configured; simpl.
  now rewrite <- !app_assoc.
Qed.

Lemma smoke_test_cases cfg w :
  (CPU_ONLY cfg = true /\ smoke_test cfg w = Returned tt w) \/
  (CPU_ONLY cfg = false /\
   ((exists msg p3,
        mallocGPU 4 cudaStreamDefault (proc w) = Aborted msg p3 /\
        smoke_test cfg w =
          Aborted msg (mkTraced p3 (calls w ++ [CallMallocGPU 4 cudaStreamDefault]))) \/
    (exists temp p3 msg p4,
        mallocGPU 4 cudaStreamDefault (proc w) = Returned temp p3 /\
        freeGPU temp cudaStreamDefault p3 = Aborted msg p4 /\
        smoke_test cfg w =
          Aborted msg (mkTraced p4 (calls w ++ [CallMallocGPU 4 cudaStreamDefault;
                                                CallFreeGPU temp cudaStreamDefault]))) \/
    (exists temp p3 p4,
        mallocGPU 4 cudaStreamDefault (proc w) = Returned temp p3 /\
        freeGPU temp cudaStreamDefault p3 = Returned tt p4 /\
        smoke_test cfg w =
          Returned tt (mkTraced p4 (calls w ++ [CallMallocGPU 4 cudaStreamDefault;
                                                CallFreeGPU temp cudaStreamDefault]))))).
Proof.
  unfold smoke_test. destruct (CPU_ONLY cfg); [left; auto|right].
  split; [reflexivity|].
  unfold mbind, M_bind, bind, call.
  destruct (mallocGPU 4 cudaStreamDefault (proc w)) as [temp p3|msg p3]; simpl.
  - destruct (freeGPU temp cudaStreamDefault p3) as [[] p4|msg p4] eqn:Hf; simpl;
      rewrite <- app_assoc; simpl.
    + right; right. exists temp, p3, p4. auto.
    + right; left. exists temp, p3, msg, p4. auto.
  - left. exists msg, p3. auto.
Qed.

(** X6: The constructor never calls [destroy()], whether it returns or ends in a
    fatal log, and makes at most four calls; the destructor makes no call
    other than [destroy()].  So declaring an activator never tears down a
    pool that is already in use. *)
Theorem ctor_never_destroys :
  forall (cfg : BuildConfig) (gpus : list Z) (w : Traced D),
    (exists emitted,
        calls (final_state (ctor cfg gpus w)) = calls w ++ emitted /\
        existsb is_destroy emitted = false /\
        (length emitted <= 4)%nat) /\
    (forall a, calls (final_state (dtor a w)) = calls w \/
               calls (final_state (dtor a w)) = calls w ++ [CallDestroy]).
Proof.
  intros cfg gpus w. split.
  - destruct gpus as [|g gpus'].
    + exists []. rewrite ctor_empty; simpl. rewrite app_nil_r.
      repeat split. lia.
    + rewrite ctor_nonempty by discriminate.
      assert (Hw2 : calls (configured (g :: gpus') w)
                    = calls w ++ [CallUsePool; CallSetGPUs (g :: gpus')])
        by reflexivity.
      remember (configured (g :: gpus') w) as w2 eqn:Ew2.
      unfold mbind, M_bind, bind.
      destruct (smoke_test_cases cfg w2)
        as [[_ E] | [_ [(msg & p3 & _ & E)
                       | [(temp & p3 & msg & p4 & _ & _ & E)
                         | (temp & p3 & p4 & _ & _ & E)]]]];
        rewrite E; simpl; rewrite Hw2, <- ?app_assoc; simpl;
        eexists; (split; [reflexivity|]); simpl; split;
        solve [reflexivity | lia].
  - intros a. unfold dtor. destruct (using_pool_ a =? 0); simpl.
    + now left.
    + right. unfold call. now destruct (destroy (proc w)).
Qed.

(** X7: Construction can only fail in the smoke test: with the empty list, or
    in a [CPU_ONLY] build, the constructor always returns; if it ends in a
    fatal log, the list was non-empty, the build has device support, and the
    fatal log is that of [mallocGPU(&temp, 4)] or of the [freeGPU] after
    it, made after pooling was switched on and the list recorded. *)
Theorem ctor_fails_only_in_smoke_test :
  forall (cfg : BuildConfig) (gpus : list Z) (w : Traced D),
    (gpus = [] \/ CPU_ONLY cfg = true -> returns (ctor cfg gpus w) = true) /\
    (forall msg w1,
        ctor cfg gpus w = Aborted msg w1 ->
        gpus <> [] /\ CPU_ONLY cfg = false /\
        ((exists p3,
             mallocGPU 4 cudaStreamDefault (proc (configured gpus w))
               = Aborted msg p3) \/
         (exists temp p3 p4,
             mallocGPU 4 cudaStreamDefault (proc (configured gpus w))
               = Returned temp p3 /\
             freeGPU temp cudaStreamDefault p3 = Aborted msg p4))).
Proof.
  intros cfg gpus w. split.
  - intros Hcase. destruct gpus as [|g gpus']; [reflexivity|].
    destruct Hcase as [Hnil|Hcpu]; [discriminate|].
    rewrite ctor_nonempty by discriminate.
    unfold mbind, M_bind, bind, smoke_test. now rewrite Hcpu.
  - intros msg w1 Hab. destruct gpus as [|g gpus'].
    + rewrite ctor_empty in Hab. discriminate.
    + split; [discriminate|].
      rewrite ctor_nonempty in Hab by discriminate.
      unfold mbind, M_bind, bind in Hab.
      destruct (smoke_test_cases cfg (configured (g :: gpus') w))
        as [[_ E] | [Hgpu [(msg' & p3 & Hm & E)
                          | [(temp & p3 & msg' & p4 & Hm & Hf & E)
                            | (temp & p3 & p4 & _ & _ & E)]]]];
        rewrite E in Hab; try discriminate; injection Hab as <- <-;
        (split; [assumption|]).
      * left. now exists p3.
      * right. now exists temp, p3, p4.
Qed.


Lemma dtor_destroy_calls cfg gpus w0 a w1 w' :
  ctor cfg gpus w0 = Returned a w1 ->
  calls (final_state (dtor a w')) = calls w' ++ destroy_calls gpus.
Proof.
  intros Hc. rewrite (ctor_activator _ _ _ _ _ Hc). unfold destroy_calls.
  destruct (0 <? length gpus)%nat.
  - apply dtor_active.
  - rewrite dtor_inactive; simpl. now rewrite app_nil_r.
Qed.

(** X9: Activators do not know of each other.  With one block nested in
    another, each destructor decides on its own device list alone: the
    inner one calls [destroy()] while the outer activator is still alive,
    and the outer one calls it again, so two non-empty activators give two
    [destroy()] calls in a row. *)
Theorem nested_activators_each_destroy :
  forall (cfg : BuildConfig) (g1 g2 : list Z) (body : M (Traced D) exit_path)
         (w w1 w2 w3 w4 : Traced D) (a1 a2 : MemoryHandlerActivator)
         (e : exit_path),
    ctor cfg g1 w = Returned a1 w1 ->
    ctor cfg g2 w1 = Returned a2 w2 ->
    body w2 = Returned e w3 ->
    dtor a2 w3 = Returned tt w4 ->
    calls w4 = calls w3 ++ destroy_calls g2 /\
    calls (final_state (scope cfg g1 (scope cfg g2 body) w))
      = calls w3 ++ destroy_calls g2 ++ destroy_calls g1 /\
    (g1 <> [] -> g2 <> [] ->
     calls (final_state (scope cfg g1 (scope cfg g2 body) w))
       = calls w3 ++ [CallDestroy; CallDestroy]).
Proof.
  intros cfg g1 g2 body w w1 w2 w3 w4 a1 a2 e Hc1 Hc2 Hb Hd.
  assert (Hw4 : calls w4 = calls w3 ++ destroy_calls g2).
  { pose proof (dtor_destroy_calls cfg g2 w1 a2 w2 w3 Hc2) as Hcalls.
    now rewrite Hd in Hcalls. }
  assert (Hinner : scope cfg g2 body w1 = Returned e w4).
  { rewrite (scope_end _ _ _ _ _ _ _ _ Hc2 Hb).
    unfold mbind, M_bind. now rewrite (bind_Returned _ _ _ _ _ Hd). }
  assert (Hall : calls (final_state (scope cfg g1 (scope cfg g2 body) w))
                 = calls w3 ++ destroy_calls g2 ++ destroy_calls g1).
  { rewrite (scope_end _ _ _ _ _ _ _ _ Hc1 Hinner), final_state_then_ret.
    rewrite (dtor_destroy_calls cfg g1 w a1 w1 w4 Hc1), Hw4.
    now rewrite <- app_assoc. }
  split; [exact Hw4|]. split; [exact Hall|].
  intros Hne1 Hne2. rewrite Hall. unfold destroy_calls.
  now rewrite (nonempty_size _ Hne1), (nonempty_size _ Hne2).
Qed.

End Activator.

(** *** Runs on the small device, with the allocator members modelled above *)

Definition gpu_cnmem_build : BuildConfig := mkBuild false true.
Definition gpu_plain_build : BuildConfig := mkBuild false false.
Definition cpu_only_build : BuildConfig := mkBuild true false.

Definition sim_start : Traced SimDevice := mkTraced sim_fresh [].

(** A body: one 64-byte allocation, then the block is left by an exception. *)
Definition sim_body : M (Traced SimDevice) exit_path :=
  call (CallMallocGPU 64 cudaStreamDefault) (mallocGPU 64 cudaStreamDefault)
    ≫= fun _ => ret Unwinding.

Definition sim_malloc_step (size : Z) : M (Traced SimDevice) unit :=
  call (CallMallocGPU size cudaStreamDefault) (mallocGPU size cudaStreamDefault)
    ≫= fun _ => ret tt.

Definition sim_constructed : Traced SimDevice :=
  mkTraced (mkProcess (mkMemoryHandler true false [0; 1])
                      (mkSim 0 [] 0 4101 65536))
           [CallUsePool; CallSetGPUs [0; 1];
            CallMallocGPU 4 cudaStreamDefault; CallFreeGPU 4096 cudaStreamDefault].

Definition sim_body_done : Traced SimDevice :=
  mkTraced (mkProcess (mkMemoryHandler true false [0; 1])
                      (mkSim 0 [] 0 4166 65536))
           [CallUsePool; CallSetGPUs [0; 1];
            CallMallocGPU 4 cudaStreamDefault; CallFreeGPU 4096 cudaStreamDefault;
            CallMallocGPU 64 cudaStreamDefault].

Example sim_scope_trace :
  scope mallocGPU freeGPU destroy gpu_cnmem_build [0; 1] sim_body sim_start =
    Returned Unwinding
      (mkTraced (mkProcess (mkMemoryHandler false false [0; 1])
                           (mkSim 0 [] 0 4166 65536))
                [CallUsePool; CallSetGPUs [0; 1];
                 CallMallocGPU 4 0; CallFreeGPU 4096 0;
                 CallMallocGPU 64 0; CallDestroy]).
Proof. reflexivity. Qed.

Example sim_empty_scope_trace :
  scope mallocGPU freeGPU destroy gpu_cnmem_build [] sim_body sim_start =
    Returned Unwinding
      (mkTraced (mkProcess MemoryHandler_new (mkSim 0 [] 0 4161 65536))
                [CallMallocGPU 64 0]).
Proof. reflexivity. Qed.

Lemma destroy_once_at_scope_end_witness :
  ctor mallocGPU freeGPU gpu_cnmem_build [0; 1] sim_start
    = Returned (mkActivator 1) sim_constructed /\
  sim_body sim_constructed = Returned Unwinding sim_body_done /\
  [0; 1] <> @nil Z /\
  calls (final_state (scope mallocGPU freeGPU destroy gpu_cnmem_build [0; 1]
                            sim_body sim_start))
    = calls sim_body_done ++ [CallDestroy].
Proof.
  assert (Hc : ctor mallocGPU freeGPU gpu_cnmem_build [0; 1] sim_start
               = Returned (mkActivator 1) sim_constructed) by reflexivity.
  assert (Hb : sim_body sim_constructed = Returned Unwinding sim_body_done)
    by reflexivity.
  assert (Hne : [0; 1] <> @nil Z) by discriminate.
  pose proof (destroy_once_at_scope_end mallocGPU freeGPU destroy
                gpu_cnmem_build [0; 1] sim_body sim_start sim_constructed
                sim_body_done (mkActivator 1) Unwinding Hc Hb) as [Hnonempty _].
  split; [exact Hc|]. split; [exact Hb|]. split; [exact Hne|].
  exact (proj1 (proj2 (Hnonempty Hne))).
Defined.

(** C2 as stated fails in a [CPU_ONLY] build: built from the list [[0]], the
    constructor returns after [usePool()] and [setGPUs], without any
    allocate/free round trip. *)
Lemma ctor_cpu_only_no_round_trip :
  ctor mallocGPU freeGPU cpu_only_build [0] sim_start =
    Returned (mkActivator 1)
      (mkTraced (mkProcess (mkMemoryHandler true false [0])
                           (mkSim 0 [] 0 4096 65536))
                [CallUsePool; CallSetGPUs [0]]) /\
  has_round_trip [CallUsePool; CallSetGPUs [0]] = false /\
  has_round_trip
    (calls (final_state (ctor mallocGPU freeGPU cpu_only_build [0] sim_start)))
    = false.
Proof. repeat split. Qed.

Lemma ctor_enables_then_round_trip_witness :
  [0; 1] <> @nil Z /\
  CPU_ONLY gpu_cnmem_build = false /\
  ctor mallocGPU freeGPU gpu_cnmem_build [0; 1] sim_start
    = Returned (mkActivator 1) sim_constructed /\
  CPU_ONLY cpu_only_build = true /\
  ctor mallocGPU freeGPU cpu_only_build [0; 1] sim_start
    = Returned (mkActivator 1) (configured [0; 1] sim_start).
Proof.
  assert (Hne : [0; 1] <> @nil Z) by discriminate.
  pose proof (ctor_enables_then_round_trip mallocGPU freeGPU
                gpu_cnmem_build [0; 1] sim_start Hne) as (_ & _ & _ & Hgpu).
  pose proof (ctor_enables_then_round_trip mallocGPU freeGPU
                cpu_only_build [0; 1] sim_start Hne) as (_ & _ & Hcpu & _).
  split; [exact Hne|].
  split; [reflexivity|].
  split; [exact (Hgpu eq_refl)|].
  split; [reflexivity|].
  exact (Hcpu eq_refl).
Defined.

Lemma sim_malloc_step_keeps_pool_off cfg size :
  keeps_pool_off cfg (sim_malloc_step size).
Proof.
  intros w Hoff.
  unfold sim_malloc_step, mbind, M_bind, bind, call, mallocGPU, allocate_memory.
  destruct (if initialized_ (handler (proc w)) then _ else _) as [[ptr d']|];
    simpl; exact Hoff.
Qed.

Lemma empty_activation_no_effects_witness :
  usingPool gpu_cnmem_build (handler (proc sim_start)) = false /\
  Forall (keeps_pool_off gpu_cnmem_build)
         [sim_malloc_step 64; sim_malloc_step 100000] /\
  ctor mallocGPU freeGPU gpu_cnmem_build [] sim_start
    = Returned (mkActivator 0) sim_start /\
  Forall (fun w' => usingPool gpu_cnmem_build (handler (proc w')) = false)
         (scope_visited mallocGPU freeGPU destroy gpu_cnmem_build []
                        [sim_malloc_step 64; sim_malloc_step 100000] sim_start).
Proof.
  assert (Hoff : usingPool gpu_cnmem_build (handler (proc sim_start)) = false)
    by reflexivity.
  assert (Hsteps : Forall (keeps_pool_off (D := SimDevice) gpu_cnmem_build)
                          [sim_malloc_step 64; sim_malloc_step 100000])
    by (repeat constructor; apply sim_malloc_step_keeps_pool_off).
  pose proof (empty_activation_no_effects mallocGPU freeGPU destroy
                gpu_cnmem_build _ sim_start Hoff Hsteps) as (Hc & _ & _ & Hall).
  split; [exact Hoff|]. split; [exact Hsteps|]. split; [exact Hc|exact Hall].
Defined.

Lemma usingPool_false_without_cnmem_witness :
  USE_CNMEM gpu_plain_build = false /\
  [0; 1] <> @nil Z /\
  MemoryHandler.using_pool_ (handler (proc sim_constructed)) = true /\
  usingPool gpu_plain_build (handler (proc sim_constructed)) = false /\
  calls (final_state (scope mallocGPU freeGPU destroy gpu_plain_build [0; 1]
                            sim_body sim_start))
    = calls sim_body_done ++ [CallDestroy].
Proof.
  assert (Hcfg : USE_CNMEM gpu_plain_build = false) by reflexivity.
  assert (Hne : [0; 1] <> @nil Z) by discriminate.
  pose proof (usingPool_false_without_cnmem mallocGPU freeGPU destroy
                gpu_plain_build Hcfg) as (Hoff & _ & Hscope).
  destruct (Hscope [0; 1] [] sim_start Hne) as [_ Hdestroy].
  split; [exact Hcfg|]. split; [exact Hne|]. split; [reflexivity|].
  split; [apply Hoff|].
  exact (Hdestroy sim_body (mkActivator 1) sim_constructed Unwinding
                  sim_body_done eq_refl eq_refl).
Defined.

(** *** Failing and nested blocks on the small device *)

(** A device with room for one byte: the smoke test's allocation fails. *)
Definition sim_tiny : Traced SimDevice :=
  mkTraced (mkProcess MemoryHandler_new (mkSim 0 [] 0 4096 4097)) [].

Definition sim_tiny_failed : Traced SimDevice :=
  mkTraced (mkProcess (mkMemoryHandler true false [0]) (mkSim 0 [] 0 4096 4097))
           [CallUsePool; CallSetGPUs [0]; CallMallocGPU 4 cudaStreamDefault].



Lemma ctor_fails_only_in_smoke_test_witness :
  ctor mallocGPU freeGPU gpu_cnmem_build [0] sim_tiny
    = Aborted "device allocation failed" sim_tiny_failed /\
  [0] <> @nil Z /\
  CPU_ONLY gpu_cnmem_build = false /\
  (CPU_ONLY cpu_only_build = true ->
   returns (ctor mallocGPU freeGPU cpu_only_build [0] sim_tiny) = true).
Proof.
  assert (Hab : ctor mallocGPU freeGPU gpu_cnmem_build [0] sim_tiny
                = Aborted "device allocation failed" sim_tiny_failed)
    by reflexivity.
  pose proof (ctor_fails_only_in_smoke_test mallocGPU freeGPU
                gpu_cnmem_build [0] sim_tiny) as [_ Hfail].
  pose proof (ctor_fails_only_in_smoke_test mallocGPU freeGPU
                cpu_only_build [0] sim_tiny) as [Hret _].
  destruct (Hfail _ _ Hab) as (Hne & Hgpu & _).
  split; [exact Hab|]. split; [exact Hne|]. split; [exact Hgpu|].
  intros Hcpu. apply Hret. now right.
Defined.


Definition sim_inner_constructed : Traced SimDevice :=
  mkTraced (mkProcess (mkMemoryHandler true false [1])
                      (mkSim 0 [] 0 4106 65536))
           (calls sim_constructed ++
            [CallUsePool; CallSetGPUs [1];
             CallMallocGPU 4 cudaStreamDefault; CallFreeGPU 4101 cudaStreamDefault]).

Definition sim_inner_body_done : Traced SimDevice :=
  mkTraced (mkProcess (mkMemoryHandler true false [1])
                      (mkSim 0 [] 0 4171 65536))
           (calls sim_inner_constructed ++ [CallMallocGPU 64 cudaStreamDefault]).

Definition sim_inner_destroyed : Traced SimDevice :=
  mkTraced (mkProcess (mkMemoryHandler false false [1])
                      (mkSim 0 [] 0 4171 65536))
           (calls sim_inner_body_done ++ [CallDestroy]).

Lemma nested_activators_each_destroy_witness :
  ctor mallocGPU freeGPU gpu_cnmem_build [0; 1] sim_start
    = Returned (mkActivator 1) sim_constructed /\
  ctor mallocGPU freeGPU gpu_cnmem_build [1] sim_constructed
    = Returned (mkActivator 1) sim_inner_constructed /\
  sim_body sim_inner_constructed = Returned Unwinding sim_inner_body_done /\
  dtor destroy (mkActivator 1) sim_inner_body_done
    = Returned tt sim_inner_destroyed /\
  calls (final_state
           (scope mallocGPU freeGPU destroy gpu_cnmem_build [0; 1]
                  (scope mallocGPU freeGPU destroy gpu_cnmem_build [1] sim_body)
                  sim_start))
    = calls sim_inner_body_done ++ [CallDestroy; CallDestroy].
Proof.
  assert (Hc1 : ctor mallocGPU freeGPU gpu_cnmem_build [0; 1] sim_start
                = Returned (mkActivator 1) sim_constructed) by reflexivity.
  assert (Hc2 : ctor mallocGPU freeGPU gpu_cnmem_build [1] sim_constructed
                = Returned (mkActivator 1) sim_inner_constructed)
    by reflexivity.
  assert (Hb : sim_body sim_inner_constructed
               = Returned Unwinding sim_inner_body_done) by reflexivity.
  assert (Hd : dtor destroy (mkActivator 1) sim_inner_body_done
               = Returned tt sim_inner_destroyed) by reflexivity.
  pose proof (nested_activators_each_destroy mallocGPU freeGPU destroy
                gpu_cnmem_build [0; 1] [1] sim_body _ _ _ _ _ _ _ _
                Hc1 Hc2 Hb Hd) as (_ & _ & Htwice).
  split; [exact Hc1|]. split; [exact Hc2|]. split; [exact Hb|].
  split; [exact Hd|].
  apply Htwice; discriminate.
Defined.

End MemoryHandlerActivator.

(** ** Explicit instantiation macros

    [INSTANTIATE_CLASS] and the [INSTANTIATE_LAYER_GPU_*] macros expand to
    lists of declarations that depend on [CPU_ONLY]. *)

Module Instantiate.

Inductive scalar : Type := float | double | half.

Inductive declaration : Type :=
| GuardChar (classname : string)
    (* char gInstantiationGuard##classname *)
| TemplateClass (classname : string) (Dtype Mtype : scalar)
    (* template class classname<Dtype, Mtype> *)
| TemplateForward_gpu (classname : string) (Dtype Mtype : scalar)
    (* template void classname<Dtype, Mtype>::Forward_gpu(...) *)
| TemplateBackward_gpu (classname : string) (Dtype Mtype : scalar).
    (* template void classname<Dtype, Mtype>::Backward_gpu(...) *)

Definition INSTANTIATE_CLASS (cfg : BuildConfig) (classname : string)
  : list declaration :=
  if CPU_ONLY cfg then
    [GuardChar classname;
     TemplateClass classname float float;
     TemplateClass classname double double]
  else
    [GuardChar classname;
     TemplateClass classname float float;
     TemplateClass classname double double;
     TemplateClass classname half float].

Definition INSTANTIATE_LAYER_GPU_FORWARD (cfg : BuildConfig) (classname : string)
  : list declaration :=
  if CPU_ONLY cfg then
    [TemplateForward_gpu classname float float;
     TemplateForward_gpu classname double double]
  else
    [TemplateForward_gpu classname float float;
     TemplateForward_gpu classname double double;
     TemplateForward_gpu classname half float].

Definition INSTANTIATE_LAYER_GPU_BACKWARD (cfg : BuildConfig) (classname : string)
  : list declaration :=
  if CPU_ONLY cfg then
    [TemplateBackward_gpu classname float float;
     TemplateBackward_gpu classname double double]
  else
    [TemplateBackward_gpu classname float float;
     TemplateBackward_gpu classname double double;
     TemplateBackward_gpu classname half float].

(** [[
    #define INSTANTIATE_LAYER_GPU_FUNCS(classname) \
      INSTANTIATE_LAYER_GPU_FORWARD(classname); \
      INSTANTIATE_LAYER_GPU_BACKWARD(classname)
    ]] *)
Definition INSTANTIATE_LAYER_GPU_FUNCS (cfg : BuildConfig) (classname : string)
  : list declaration :=
  INSTANTIATE_LAYER_GPU_FORWARD cfg classname ++
  INSTANTIATE_LAYER_GPU_BACKWARD cfg classname.

(** The type pairs a list of declarations instantiates the class, the
    forward pass and the backward pass for. *)
Definition class_types (ds : list declaration) : list (scalar * scalar) :=
  flat_map (fun d => match d with
                     | TemplateClass _ D M => [(D, M)]
                     | _ => []
                     end) ds.

Definition forward_types (ds : list declaration) : list (scalar * scalar) :=
  flat_map (fun d => match d with
                     | TemplateForward_gpu _ D M => [(D, M)]
                     | _ => []
                     end) ds.

Definition backward_types (ds : list declaration) : list (scalar * scalar) :=
  flat_map (fun d => match d with
                     | TemplateBackward_gpu _ D M => [(D, M)]
                     | _ => []
                     end) ds.

Definition scalar_eqb (a b : scalar) : bool :=
  match a, b with
  | float, float | double, double | half, half => true
  | _, _ => false
  end.

Definition mentions_half (ts : list (scalar * scalar)) : bool :=
  existsb (fun '(D, M) => scalar_eqb D half || scalar_eqb M half) ts.

(** X10: In every build the GPU forward and backward passes of a layer are
    instantiated for exactly the type pairs, in the same order, that the
    class itself is instantiated for, each pair once; the half-precision
    pair is among them exactly when [CPU_ONLY] is not defined. *)
Theorem gpu_funcs_match_class :
  forall (cfg : BuildConfig) (classname : string),
    forward_types (INSTANTIATE_LAYER_GPU_FUNCS cfg classname)
      = class_types (INSTANTIATE_CLASS cfg classname) /\
    backward_types (INSTANTIATE_LAYER_GPU_FUNCS cfg classname)
      = class_types (INSTANTIATE_CLASS cfg classname) /\
    NoDup (class_types (INSTANTIATE_CLASS cfg classname)) /\
    mentions_half (class_types (INSTANTIATE_CLASS cfg classname))
      = negb (CPU_ONLY cfg).
Proof.
  intros [cpu cnmem] classname.
  unfold INSTANTIATE_LAYER_GPU_FUNCS, INSTANTIATE_LAYER_GPU_FORWARD,
    INSTANTIATE_LAYER_GPU_BACKWARD, INSTANTIATE_CLASS; simpl.
  destruct cpu; simpl; repeat split;
    repeat (apply NoDup_cons; split;
            [rewrite ?not_elem_of_cons; repeat split;
             solve [discriminate | apply not_elem_of_nil]|]);
    apply NoDup_nil_2.
Qed.

End Instantiate.
